(** * The Tarsier generation endpoint (app/tarsier_endpoint.py)

    A shallow embedding of the FastAPI shim: the request schema, the
    video fetcher, the startup hook, the [/generate] handler and the
    [/health] handler, followed by the properties of the handlers.

    Python exceptions are values of [PyExc]; a handler is a function
    from the state of the process and of the disk to a result (an
    exception or a value) and a new state.  The libraries the shim
    calls (requests, tempfile, the Tarsier inference module, the
    [str] of a Starlette exception) are fields of an environment
    record [Env]: the shim's behaviour is stated for every
    environment.  Of the [print] statements of the source, the one
    that writes text of the request (line 103) is modelled, since the
    standard output may refuse that text; the others write a path
    picked by [tempfile], a number or a text of the library and are
    left out. *)

From Stdlib Require Import ZArith String Ascii List.
From Stdlib.Strings Require Import Byte.
From Stdlib Require Import PrimFloat.
From stdpp Require Import gmap strings list pretty.

Local Open Scope string_scope.
Local Open Scope Z_scope.

(** ** Python strings *)

Module PyStr.

(** The line feed written ["\n"] in the source. *)
Definition LF : string := String (ascii_of_nat 10) EmptyString.

(** [str.replace(old, new)] for a non-empty [old]: the text is scanned
    from the left, every occurrence found is replaced and the scan
    resumes after it.  [skip] counts the characters of the occurrence
    still to be dropped. *)
Fixpoint replace_from (old new : string) (skip : nat) (s : string) : string :=
  match s with
  | EmptyString => EmptyString
  | String c s' =>
      match skip with
      | S k => replace_from old new k s'
      | O =>
          if String.prefix old s
          then new +:+ replace_from old new (Nat.pred (String.length old)) s'
          else String c (replace_from old new O s')
      end
  end.

(** With an empty [old] Python puts [new] before every character and
    at the end. *)
Fixpoint intersperse_all (new : string) (s : string) : string :=
  match s with
  | EmptyString => new
  | String c s' => new +:+ String c (intersperse_all new s')
  end.

Definition replace (s old new : string) : string :=
  match old with
  | EmptyString => intersperse_all new s
  | String _ _ => replace_from old new O s
  end.

(** [c not in s] for a single character. *)
Fixpoint lacks (c : ascii) (s : string) : bool :=
  match s with
  | EmptyString => true
  | String d s' => negb (Ascii.eqb c d) && lacks c s'
  end.

End PyStr.

(** ** Values, exceptions, requests and responses *)

(** The values that appear in the dictionaries of the shim. *)
Inductive PyVal : Type :=
| PyBool (b : bool)
| PyInt (z : Z)
| PyFloat (f : float)
| PyString (s : string).

(** A Python dictionary with string keys. *)
Abbreviation PyDict := (gmap string PyVal).

(** The exceptions a handler can see: FastAPI's [HTTPException] and any
    other subclass of [Exception], kept as its class name and its
    [str].  Both are caught by [except Exception]. *)
Inductive PyExc : Type :=
| HTTPException (status_code : Z) (detail : string)
| PyException (cls : string) (msg : string).

(** class GenerateRequest(BaseModel) *)
Record GenerateRequest : Type := {
  instruction : string;
  max_new_tokens : Z;
  do_sample : bool;
  temperature : float;
  top_p : float;
  video_url : option string
}.



(** The body of an HTTP response: a JSON object or plain text. *)
Inductive Content : Type :=
| JSON (object : PyDict)
| PlainText (text : string).

(** An HTTP response: a status code and a body. *)
Record HttpResponse : Type := {
  resp_status : Z;
  resp_content : Content
}.

(** ** The model session *)

Record Tensor : Type := { device : string }.

(** A model handle: the sequence that [model.parameters()] iterates. *)
Record Model : Type := { parameters : list Tensor }.

(** A processor handle, with the frame limit it was loaded with. *)
Record Processor : Type := { max_n_frames : Z }.

(** class ModelState *)
Record ModelState : Type := {
  model : option Model;
  processor : option Processor
}.

(** ModelState.__init__ *)
Definition ModelState_init : ModelState :=
  {| model := None; processor := None |}.

Definition model_path : string := "omni-research/Tarsier-34b".

(** ** The process, the disk and the libraries *)

(** The files on disk: path to content. *)
Abbreviation Disk := (gmap string (list byte)).

(** The calls a handler makes to the outside, in the order made. *)
Inductive Event : Type :=
| EvGet (url : string)
| EvTempFile (name : string)
| EvProcessOne (prompt : string) (video_file : option string)
    (generate_kwargs : PyDict)
| EvUnlink (path : string).

(** The state a handler runs in: the module-level [model_state], the
    process environment [os.environ], the disk and the calls made. *)
Record World : Type := {
  model_state : ModelState;
  environ : gmap string string;
  files : Disk;
  calls : list Event
}.

(** What [requests.get(url, stream=True)] returns: the status code and
    what [iter_content] yields, namely [chunks] and then, when
    [stream_error] is set, an exception in place of the next chunk. *)
Record Response : Type := {
  status : Z;
  chunks : list (list byte);
  stream_error : option PyExc
}.

(** The libraries behind the shim.
    - [requests_get]: the outcome of [requests.get(url, stream=True)];
    - [HTTPError_str]: the message of the [HTTPError] that
      [raise_for_status] raises;
    - [url_ext]: [os.path.splitext(urlparse(url).path)[1]];
    - [mkstemp_name]: the name [tempfile] picks for a suffix;
    - [disk_step]: what the other processes of the machine did to the
      disk since the handler last looked at it (the identity on a quiet
      machine);
    - [load_model_and_processor], [process_one]: the functions of
      [tasks.inference_quick_start];
    - [HTTPException_str]: [str(e)] for an [HTTPException];
    - [stdout_write]: what [sys.stdout.write] does with a text, [None]
      when it is written and the exception when the stream refuses it
      (a [UnicodeEncodeError] for a text its encoding cannot
      represent, such as a lone surrogate). *)
Record Env : Type := {
  requests_get : string -> PyExc + Response;
  HTTPError_str : Response -> string;
  url_ext : string -> string;
  mkstemp_name : Disk -> string -> string;
  disk_step : Disk -> Disk;
  load_model_and_processor : string -> Z -> PyExc + (Model * Processor);
  process_one : option Model -> option Processor -> string ->
                option string -> PyDict -> PyExc + string;
  HTTPException_str : Z -> string -> string;
  stdout_write : string -> option PyExc
}.

(** The [OSError]s of the file system calls, with the text [str]
    gives them: the error number, its message and the path in quotes. *)
Definition FileNotFoundError (path : string) : PyExc :=
  PyException "FileNotFoundError"
    ("[Errno 2] No such file or directory: '" +:+ path +:+ "'").

Definition FileExistsError (path : string) : PyExc :=
  PyException "FileExistsError"
    ("[Errno 17] File exists: '" +:+ path +:+ "'").

(** ** Handlers as state and exception passing functions *)

Definition M (A : Type) : Type := World -> (PyExc + A) * World.

Definition ret {A} (a : A) : M A := fun w => (inr a, w).

Definition bind {A B} (m : M A) (k : A -> M B) : M B :=
  fun w => match m w with
           | (inr a, w') => k a w'
           | (inl e, w') => (inl e, w')
           end.

(** raise e *)
Definition raise {A} (e : PyExc) : M A := fun w => (inl e, w).

(** try: body / except Exception as e: handler e *)
Definition try_except {A} (body : M A) (handler : PyExc -> M A) : M A :=
  fun w => match body w with
           | (inr a, w') => (inr a, w')
           | (inl e, w') => handler e w'
           end.

(** try: body / finally: fin.  The [finally] block always runs; an
    exception it raises replaces the outcome of the body. *)
Definition try_finally {A} (body : M A) (fin : M unit) : M A :=
  fun w => match body w with
           | (r, w') =>
               match fin w' with
               | (inr _, w'') => (r, w'')
               | (inl e, w'') => (inl e, w'')
               end
           end.

Notation "x <- m ;; k" := (bind m (fun x => k))
  (at level 100, m at next level, right associativity).
Notation "m ;;; k" := (bind m (fun _ => k))
  (at level 100, right associativity).

Definition get_world : M World := fun w => (inr w, w).

Definition set_files (d : Disk) : M unit :=
  fun w => (inr tt, {| model_state := model_state w; environ := environ w;
                       files := d; calls := calls w |}).

Definition record_call (ev : Event) : M unit :=
  fun w => (inr tt, {| model_state := model_state w; environ := environ w;
                       files := files w; calls := (calls w ++ [ev])%list |}).

Definition set_model_state (st : ModelState) : M unit :=
  fun w => (inr tt, {| model_state := st; environ := environ w;
                       files := files w; calls := calls w |}).

Definition set_environ (k v : string) : M unit :=
  fun w => (inr tt, {| model_state := model_state w;
                       environ := <[k := v]> (environ w);
                       files := files w; calls := calls w |}).

(** [when c m]: an [if c:] statement without [else]. *)
Definition when (c : bool) (m : M unit) : M unit := if c then m else ret tt.

Section Handlers.

Context (env : Env).

(** str(e) *)
Definition str (e : PyExc) : string :=
  match e with
  | HTTPException s d => HTTPException_str env s d
  | PyException _ msg => msg
  end.

(** *** Library calls *)

(** What [print(a, b, ...)] writes, in the order written: the arguments
    with a space between them, then a line feed. *)
Fixpoint print_pieces (args : list string) : list string :=
  match args with
  | [] => [PyStr.LF]
  | [a] => [a; PyStr.LF]
  | a :: rest => a :: " " :: print_pieces rest
  end.

(** The first exception met when the texts are written in turn. *)
Fixpoint first_error (texts : list string) : option PyExc :=
  match texts with
  | [] => None
  | t :: rest =>
      match stdout_write env t with
      | Some e => Some e
      | None => first_error rest
      end
  end.

Definition print_error (args : list string) : option PyExc :=
  first_error (print_pieces args).

(** print(a, b, ...) *)
Definition print_ (args : list string) : M unit :=
  match print_error args with
  | Some e => raise e
  | None => ret tt
  end.

(** The disk as a path-based call finds it: the other processes have
    moved first. *)
Definition look_at_disk : M Disk :=
  w <- get_world ;;
  let d := disk_step env (files w) in
  set_files d ;;; ret d.

(** requests.get(url, stream=True) *)
Definition requests_get_stream (url : string) : M Response :=
  record_call (EvGet url) ;;;
  match requests_get env url with
  | inl e => raise e
  | inr r => ret r
  end.

(** response.raise_for_status(): an [HTTPError] for a 4xx or 5xx. *)
Definition raise_for_status (r : Response) : M unit :=
  when ((400 <=? status r) && (status r <? 600))
    (raise (PyException "HTTPError" (HTTPError_str env r))).

(** tempfile.NamedTemporaryFile(delete=False, suffix=ext): a new, empty
    file is created under a name that is not in use; the name is
    returned.  The file is opened exclusively, so a name in use is an
    error. *)
Definition NamedTemporaryFile (suffix : string) : M string :=
  d <- look_at_disk ;;
  let name := mkstemp_name env d suffix in
  match d !! name with
  | Some _ => raise (FileExistsError name)
  | None =>
      set_files (<[name := []]> d) ;;;
      record_call (EvTempFile name) ;;;
      ret name
  end.

(** tmp.write(chunk) *)
Definition tmp_write (name : string) (chunk : list byte) : M unit :=
  w <- get_world ;;
  set_files (alter (fun content => (content ++ chunk)%list) name (files w)).

(** os.path.exists(path) *)
Definition os_path_exists (path : string) : M bool :=
  d <- look_at_disk ;;
  ret (bool_decide (is_Some (d !! path))).

(** os.path.getsize(path) *)
Definition os_path_getsize (path : string) : M Z :=
  d <- look_at_disk ;;
  match d !! path with
  | Some content => ret (Z.of_nat (List.length content))
  | None => raise (FileNotFoundError path)
  end.

(** os.unlink(path) *)
Definition os_unlink (path : string) : M unit :=
  record_call (EvUnlink path) ;;;
  d <- look_at_disk ;;
  match d !! path with
  | Some _ => set_files (delete path d)
  | None => raise (FileNotFoundError path)
  end.

(** process_one(model=model_state.model, processor=model_state.processor,
    prompt=..., video_file=..., generate_kwargs=...) *)
Definition call_process_one (prompt : string) (video_file : option string)
    (generate_kwargs : PyDict) : M string :=
  w <- get_world ;;
  record_call (EvProcessOne prompt video_file generate_kwargs) ;;;
  match process_one env (model (model_state w)) (processor (model_state w))
          prompt video_file generate_kwargs with
  | inl e => raise e
  | inr text => ret text
  end.

(** *** download_video *)

(** for chunk in response.iter_content(chunk_size=8192):
        if chunk: tmp.write(chunk) *)
Fixpoint write_chunks (tmp : string) (cs : list (list byte)) : M unit :=
  match cs with
  | [] => ret tt
  | chunk :: rest =>
      when (negb (bool_decide (chunk = []))) (tmp_write tmp chunk) ;;;
      write_chunks tmp rest
  end.

Definition iter_content_into (tmp : string) (r : Response) : M unit :=
  write_chunks tmp (chunks r) ;;;
  match stream_error r with
  | Some e => raise e
  | None => ret tt
  end.

Definition download_video (url : string) : M string :=
  try_except
    (response <- requests_get_stream url ;;
     raise_for_status response ;;;
     let ext := match url_ext env url with
                | EmptyString => ".mp4"
                | e => e
                end in
     tmp <- NamedTemporaryFile ext ;;
     iter_content_into tmp response ;;;
     ret tmp)
    (fun e =>
       raise (HTTPException 400 ("Failed to download video: " +:+ str e))).

(** *** load_model (startup) *)

Definition load_model : M unit :=
  try_except
    (set_environ "PYTORCH_CUDA_ALLOC_CONF" "expandable_segments:True" ;;;
     match load_model_and_processor env model_path 8 with
     | inl e => raise e
     | inr (m, p) => set_model_state {| model := Some m; processor := Some p |}
     end)
    (fun e => raise e).

(** *** generate *)

Definition make_generate_kwargs (request : GenerateRequest) : PyDict :=
  {[ "do_sample" := PyBool (do_sample request);
     "max_new_tokens" := PyInt (max_new_tokens request);
     "top_p" := PyFloat (top_p request);
     "temperature" := PyFloat (temperature request);
     "use_cache" := PyBool true ]}.

Definition video_prompt (instruction : string) : string :=
  "<video>" +:+ PyStr.LF +:+
  PyStr.replace (PyStr.replace instruction "<image>" "") "<video>" "".

Definition is_None {A} (o : option A) : bool :=
  match o with None => true | Some _ => false end.

Definition generate (request : GenerateRequest) : M PyDict :=
  w <- get_world ;;
  if is_None (model (model_state w)) || is_None (processor (model_state w))
  then raise (HTTPException 503 "Model not loaded")
  else
    try_except
      (let generate_kwargs := make_generate_kwargs request in
       generated_text <-
         match video_url request with
         | Some url =>
             video_path <- download_video url ;;
             try_finally
               (exists_ <- os_path_exists video_path ;;
                when (negb exists_)
                  (raise (HTTPException 400 "Video file not created")) ;;;
                video_size <- os_path_getsize video_path ;;
                when (video_size =? 0)
                  (raise (HTTPException 400 "Video file is empty")) ;;;
                try_except
                  (print_ ["Processing with instruction:";
                           instruction request] ;;;
                   let prompt := video_prompt (instruction request) in
                   call_process_one prompt (Some video_path) generate_kwargs)
                  (fun e => raise (HTTPException 500 (str e))))
               (os_unlink video_path)
         | None =>
             try_except
               (let prompt := instruction request in
                call_process_one prompt None generate_kwargs)
               (fun e => raise (HTTPException 500 (str e)))
         end ;;
       ret ({[ "generated_text" := PyString generated_text;
               "status" := PyString "success" ]} : PyDict))
      (fun e => raise (HTTPException 500 (str e))).

(** *** health_check *)

(** next(model.parameters()): on an empty iterator [StopIteration],
    which a coroutine turns into a [RuntimeError]. *)
Definition next_parameter (m : Model) : M Tensor :=
  match parameters m with
  | t :: _ => ret t
  | [] => raise (PyException "RuntimeError" "coroutine raised StopIteration")
  end.

Definition health_check : M PyDict :=
  w <- get_world ;;
  let model_loaded := negb (is_None (model (model_state w))) in
  dev <- match model (model_state w) with
         | Some m => t <- next_parameter m ;; ret (device t)
         | None => ret "not loaded"
         end ;;
  ret ({[ "status" := PyString "healthy";
          "model_loaded" := PyBool model_loaded;
          "device" := PyString dev ]} : PyDict).

(** *** The framework around a handler *)

(** What FastAPI sends for the outcome of a handler: 200 and the
    returned object; the status and detail of an [HTTPException]; for
    any other exception the plain 500 of the server. *)
Definition fastapi_response (r : PyExc + PyDict) : HttpResponse :=
  match r with
  | inr body => {| resp_status := 200; resp_content := JSON body |}
  | inl (HTTPException s d) =>
      {| resp_status := s;
         resp_content := JSON {[ "detail" := PyString d ]} |}
  | inl (PyException _ _) =>
      {| resp_status := 500;
         resp_content := PlainText "Internal Server Error" |}
  end.

Definition serve (h : M PyDict) (w : World) : HttpResponse * World :=
  match h w with
  | (r, w') => (fastapi_response r, w')
  end.

(** POST /generate *)
Definition POST_generate (request : GenerateRequest)
  : World -> HttpResponse * World :=
  serve (generate request).

(** GET /health *)
Definition GET_health : World -> HttpResponse * World :=
  serve health_check.

End Handlers.

(** ** Observations on a run *)

(** The calls a handler added, given the worlds before and after it. *)
Definition new_calls (w w' : World) : list Event :=
  drop (List.length (calls w)) (calls w').

(** The temporary files created, the paths unlinked, the URLs fetched
    and the generation calls made by a sequence of calls. *)
Definition created_files (tr : list Event) : list string :=
  omap (fun ev => match ev with EvTempFile n => Some n | _ => None end) tr.

Definition unlinked_paths (tr : list Event) : list string :=
  omap (fun ev => match ev with EvUnlink p => Some p | _ => None end) tr.

Definition fetched_urls (tr : list Event) : list string :=
  omap (fun ev => match ev with EvGet u => Some u | _ => None end) tr.

Definition generation_calls (tr : list Event)
  : list (string * option string * PyDict) :=
  omap (fun ev => match ev with
                  | EvProcessOne pr vf kw => Some (pr, vf, kw)
                  | _ => None
                  end) tr.

(** The session holds both handles. *)
Definition session_loaded (w : World) : bool :=
  negb (is_None (model (model_state w)) || is_None (processor (model_state w))).

(** The world after one more call, and the world with another disk. *)
Definition add_call (ev : Event) (w : World) : World :=
  {| model_state := model_state w; environ := environ w;
     files := files w; calls := (calls w ++ [ev])%list |}.

Definition with_files (d : Disk) (w : World) : World :=
  {| model_state := model_state w; environ := environ w;
     files := d; calls := calls w |}.

(** The content [iter_content] delivers: the chunks, joined. *)
Definition body_bytes (r : Response) : list byte := concat (chunks r).

(** The suffix [download_video] gives the temporary file. *)
Definition video_suffix (env : Env) (url : string) : string :=
  match url_ext env url with
  | EmptyString => ".mp4"
  | e => e
  end.

(** [raise_for_status] lets the response through. *)
Definition status_ok (r : Response) : bool :=
  negb ((400 <=? status r) && (status r <? 600)).

(** The video of a request is rejected: the download raises, or the
    file is missing when the handler looks for it, or it has no bytes
    when the handler asks for its size. *)
Definition video_rejected (env : Env) (url : string) (w : World) : bool :=
  match download_video env url w with
  | (inl _, _) => true
  | (inr p, w1) =>
      let d1 := disk_step env (files w1) in
      match d1 !! p with
      | None => true
      | Some _ =>
          match disk_step env d1 !! p with
          | None | Some [] => true
          | Some (_ :: _) => false
          end
      end
  end.


(** ** Sample environments and requests *)

Module Examples.

(** [str] of an [HTTPException] as Starlette prints it. *)
Definition starlette_str (s : Z) (d : string) : string :=
  pretty s +:+ ": " +:+ d.

(** A quiet machine whose HTTP layer is [get]; the model answers with
    the prompt it was given. *)
Definition quiet_env (get : string -> PyExc + Response) : Env :=
  {| requests_get := get;
     HTTPError_str := fun r => pretty (status r) +:+ " Client Error";
     url_ext := fun _ => "";
     mkstemp_name := fun _ suffix => "/tmp/tmpvideo" +:+ suffix;
     disk_step := fun d => d;
     load_model_and_processor := fun _ n =>
       inr ({| parameters := [ {| device := "cuda:0" |} ] |},
            {| max_n_frames := n |});
     process_one := fun _ _ prompt _ _ => inr ("caption for " +:+ prompt);
     HTTPException_str := starlette_str;
     stdout_write := fun _ => None |}.

Definition respond (code : Z) (body : list (list byte))
  : string -> PyExc + Response :=
  fun _ => inr {| status := code; chunks := body; stream_error := None |}.

Definition env_ok : Env := quiet_env (respond 200 [[x00; x01]; []; [x02]]).
Definition env_404 : Env := quiet_env (respond 404 []).
Definition env_empty : Env := quiet_env (respond 200 []).

(** A connection that breaks after the first chunk. *)
Definition env_cut : Env :=
  quiet_env (fun _ =>
    inr {| status := 200; chunks := [[x00]];
           stream_error :=
             Some (PyException "ChunkedEncodingError" "Connection broken") |}).

(** A machine where another process removes the temporary file as soon
    as it can. *)
Definition env_swept : Env :=
  {| requests_get := requests_get env_ok;
     HTTPError_str := HTTPError_str env_ok;
     url_ext := url_ext env_ok;
     mkstemp_name := mkstemp_name env_ok;
     disk_step := delete "/tmp/tmpvideo.mp4";
     load_model_and_processor := load_model_and_processor env_ok;
     process_one := process_one env_ok;
     HTTPException_str := HTTPException_str env_ok;
     stdout_write := stdout_write env_ok |}.

(** The process before and after startup. *)
Definition boot : World :=
  {| model_state := ModelState_init; environ := ∅; files := ∅; calls := [] |}.

Definition started : World := snd (load_model env_ok boot).

Definition request_of (i : string) (u : option string) : GenerateRequest :=
  {| instruction := i; max_new_tokens := 512; do_sample := false;
     temperature := 0%float; top_p := 1%float; video_url := u |}.

Definition describe_this : GenerateRequest :=
  request_of "Describe this." None.

Definition what_happens : GenerateRequest :=
  request_of ("<video>" +:+ PyStr.LF +:+ "What happens?")
    (Some "http://x/y.mp4").

End Examples.

(** ** Quiet machines, request sequences and further scenarios *)




(** Requests served one after the other.  [download_video] is awaited
    but contains no [await] of its own, so a handler runs from its
    first line to its response without yielding to another request. *)
Fixpoint serve_requests (env : Env) (requests : list GenerateRequest)
    (w : World) : list HttpResponse * World :=
  match requests with
  | [] => ([], w)
  | request :: rest =>
      let '(resp, w1) := POST_generate env request w in
      let '(resps, w2) := serve_requests env rest w1 in
      (resp :: resps, w2)
  end.

Module Scenarios.



(** A text holds a lone surrogate: with the code points of a Python
    string written as UTF-8, a surrogate is the byte 237 followed by a
    byte from 160 on. *)
Fixpoint has_surrogate (s : string) : bool :=
  match s with
  | String a (String b _ as rest) =>
      (Nat.eqb (nat_of_ascii a) 237 && Nat.leb 160 (nat_of_ascii b))
      || has_surrogate rest
  | _ => false
  end.

(** A machine whose standard output is a UTF-8 stream: it refuses a
    text with a lone surrogate. *)
Definition env_utf8_stdout : Env :=
  {| requests_get := requests_get Examples.env_ok;
     HTTPError_str := HTTPError_str Examples.env_ok;
     url_ext := url_ext Examples.env_ok;
     mkstemp_name := mkstemp_name Examples.env_ok;
     disk_step := disk_step Examples.env_ok;
     load_model_and_processor := load_model_and_processor Examples.env_ok;
     process_one := process_one Examples.env_ok;
     HTTPException_str := HTTPException_str Examples.env_ok;
     stdout_write := fun t =>
       if has_surrogate t
       then Some (PyException "UnicodeEncodeError"
                    "'utf-8' codec can't encode character: surrogates not allowed")
       else None |}.

(** A video request whose instruction is the lone surrogate U+D800. *)
Definition surrogate_request : GenerateRequest :=
  Examples.request_of
    (String (ascii_of_nat 237) (String (ascii_of_nat 160)
       (String (ascii_of_nat 128) EmptyString)))
    (Some "http://x/y.mp4").

(** A session that holds a model and no processor. *)
Definition half_loaded : World :=
  {| model_state :=
       {| model := Some {| parameters := [ {| device := "cuda:0" |} ] |};
          processor := None |};
     environ := ∅; files := ∅; calls := [] |}.

(** A session whose model has no parameter. *)
Definition hollow : World :=
  {| model_state := {| model := Some {| parameters := [] |};
                       processor := Some {| max_n_frames := 8 |} |};
     environ := ∅; files := ∅; calls := [] |}.

End Scenarios.

(** * Properties *)

Section Runs.

Context (env : Env).

(** ** The video fetcher *)

Lemma write_chunks_run tmp cs w c :
  files w !! tmp = Some c ->
  write_chunks tmp cs w =
  (inr tt, with_files (<[tmp := (c ++ concat cs)%list]> (files w)) w).
Proof.
  revert w c. induction cs as [|chunk rest IH]; intros w c Hc.
  - simpl. unfold ret, with_files.
    rewrite app_nil_r, insert_id by done. by destruct w.
  - simpl. destruct chunk as [|b chunk]; simpl; unfold bind.
    + unfold ret at 1. by rewrite (IH w c Hc).
    + unfold tmp_write, bind, get_world, set_files.
      erewrite IH.
      2:{ simpl. rewrite (alter_alt_Some _ _ _ _ Hc). apply lookup_insert_eq. }
      simpl. unfold with_files; simpl. f_equal. f_equal.
      rewrite (alter_alt_Some _ _ _ _ Hc), insert_insert_eq.
      by rewrite <- app_assoc.
Qed.

(** [download_video], one outcome per way through it. *)
Lemma download_video_eq url w :
  download_video env url w =
  let w1 := add_call (EvGet url) w in
  let failed e :=
    inl (HTTPException 400 ("Failed to download video: " +:+ str env e)) in
  match requests_get env url with
  | inl e => (failed e, w1)
  | inr r =>
      if status_ok r then
        let d := disk_step env (files w) in
        let name := mkstemp_name env d (video_suffix env url) in
        match d !! name with
        | Some _ =>
            (failed (FileExistsError name), with_files d w1)
        | None =>
            let w2 := add_call (EvTempFile name)
                        (with_files (<[name := body_bytes r]> d) w1) in
            match stream_error r with
            | Some e => (failed e, w2)
            | None => (inr name, w2)
            end
        end
      else (failed (PyException "HTTPError" (HTTPError_str env r)), w1)
  end.
Proof.
  unfold download_video, try_except, requests_get_stream, raise_for_status,
    status_ok, video_suffix.
  unfold bind at 1. unfold bind at 1. unfold record_call at 1.
  destruct (requests_get env url) as [e|r]; [reflexivity|].
  unfold ret at 1. unfold bind at 1.
  destruct ((400 <=? status r) && (status r <? 600)); simpl; [reflexivity|].
  unfold ret at 1. unfold bind at 1.
  unfold NamedTemporaryFile, look_at_disk, get_world, set_files, record_call,
    bind; simpl.
  destruct (disk_step env (files w) !! _) eqn:Hd; simpl.
  - reflexivity.
  - unfold iter_content_into, bind.
    erewrite write_chunks_run by (simpl; apply lookup_insert_eq).
    simpl. rewrite insert_insert_eq.
    destruct (stream_error r); reflexivity.
Qed.

(** The fetcher touches neither the session nor the model, and the
    calls it adds are the GET and, at most, one file creation. *)
Lemma download_video_calls url w :
  let '(r, w1) := download_video env url w in
  model_state w1 = model_state w /\
  match r with
  | inr p => calls w1 = (calls w ++ [EvGet url; EvTempFile p])%list
  | inl e =>
      (exists d, e = HTTPException 400 d) /\
      (calls w1 = (calls w ++ [EvGet url])%list \/
       exists p, calls w1 = (calls w ++ [EvGet url; EvTempFile p])%list)
  end.
Proof.
  rewrite download_video_eq. simpl.
  destruct (requests_get env url) as [e|r];
    [|destruct (status_ok r);
      [destruct (disk_step env (files w) !! _);
       [|destruct (stream_error r)]|]];
    simpl; rewrite <- ?app_assoc; simpl; eauto 10.
Qed.


(** ** The generation handler *)

Lemma new_calls_app w w' tr :
  calls w' = (calls w ++ tr)%list -> new_calls w w' = tr.
Proof. unfold new_calls. intros ->. apply drop_app_length. Qed.

Lemma new_calls_same w : new_calls w w = [].
Proof. apply new_calls_app. by rewrite app_nil_r. Qed.

Lemma serve_fst h w : fst (serve h w) = fastapi_response (fst (h w)).
Proof. unfold serve. by destruct (h w). Qed.

Lemma serve_snd h w : snd (serve h w) = snd (h w).
Proof. unfold serve. by destruct (h w). Qed.

Lemma generate_unloaded request w :
  session_loaded w = false ->
  generate env request w = (inl (HTTPException 503 "Model not loaded"), w).
Proof.
  unfold session_loaded, generate, bind, get_world. intros H.
  apply negb_false_iff in H. by rewrite H.
Qed.

Lemma generate_text_eq request w :
  session_loaded w = true -> video_url request = None ->
  generate env request w =
  let kw := make_generate_kwargs request in
  let w1 := add_call (EvProcessOne (instruction request) None kw) w in
  match process_one env (model (model_state w)) (processor (model_state w))
          (instruction request) None kw with
  | inr text => (inr {[ "generated_text" := PyString text;
                        "status" := PyString "success" ]}, w1)
  | inl e =>
      (inl (HTTPException 500 (str env (HTTPException 500 (str env e)))), w1)
  end.
Proof.
  unfold session_loaded, generate, bind, get_world. intros H Hv.
  apply negb_true_iff in H. rewrite H, Hv.
  unfold try_except, call_process_one, bind, get_world, record_call, raise, ret.
  simpl. by destruct (process_one env _ _ _ _ _).
Qed.

(** An exception of the fetcher reaches the outer [except Exception]
    and leaves as a 500. *)
Lemma generate_download_failed request url w e w1 :
  session_loaded w = true -> video_url request = Some url ->
  download_video env url w = (inl e, w1) ->
  generate env request w = (inl (HTTPException 500 (str env e)), w1).
Proof.
  unfold session_loaded, generate, bind, get_world. intros H Hv Hd.
  apply negb_true_iff in H. rewrite H, Hv.
  unfold try_except, bind. by rewrite Hd.
Qed.

(** Once the fetcher has returned a path: the path is unlinked last,
    it names no file afterwards, every error leaves as a 500 and a
    success has made the generation call. *)
Lemma generate_after_download request url w p w1 :
  session_loaded w = true -> video_url request = Some url ->
  download_video env url w = (inr p, w1) ->
  let kw := make_generate_kwargs request in
  let call := EvProcessOne (video_prompt (instruction request)) (Some p) kw in
  exists r w',
    generate env request w = (r, w') /\
    files w' !! p = None /\
    model_state w' = model_state w1 /\
    match r with
    | inr body =>
        exists text,
          process_one env (model (model_state w1)) (processor (model_state w1))
            (video_prompt (instruction request)) (Some p) kw = inr text /\
          body = {[ "generated_text" := PyString text;
                    "status" := PyString "success" ]} /\
          calls w' = (calls w1 ++ [call; EvUnlink p])%list
    | inl e =>
        (exists d, e = HTTPException 500 d) /\
        (calls w' = (calls w1 ++ [EvUnlink p])%list \/
         calls w' = (calls w1 ++ [call; EvUnlink p])%list)
    end.
Proof.
  unfold session_loaded, generate, bind, get_world. intros H Hv Hd.
  apply negb_true_iff in H. rewrite H, Hv.
  unfold try_except, bind. rewrite Hd.
  unfold try_finally, os_path_exists, os_path_getsize, os_unlink, try_except,
    call_process_one, print_, look_at_disk, bind, get_world, set_files,
    record_call, when, raise, ret. simpl.
  repeat (case_match; simplify_eq/=);
    (eexists _, _; split; [reflexivity|]; simpl;
     rewrite ?lookup_delete_eq, <- ?app_assoc; simpl; eauto 10).
Qed.

(** A rejected video never reaches the generation call and leaves as
    an error. *)
Lemma generate_video_rejected request url w :
  session_loaded w = true -> video_url request = Some url ->
  video_rejected env url w = true ->
  exists d w', generate env request w = (inl (HTTPException 500 d), w').
Proof.
  intros H Hv. unfold video_rejected.
  destruct (download_video env url w) as [[e|p] w1] eqn:Hd.
  - intros _. rewrite (generate_download_failed _ _ _ _ _ H Hv Hd). eauto.
  - revert Hd. unfold session_loaded, generate, bind, get_world in *.
    apply negb_true_iff in H. rewrite H, Hv. intros Hd.
    unfold try_except, bind. rewrite Hd.
    unfold try_finally, os_path_exists, os_path_getsize, os_unlink, try_except,
      call_process_one, print_, look_at_disk, bind, get_world, set_files,
      record_call, when, raise, ret. simpl.
    intros Hr.
    repeat (case_match; simplify_eq/=); eauto.
Qed.

(** The calls of one request, by the way it went. *)
Lemma generate_calls request w :
  let w' := snd (generate env request w) in
  let kw := make_generate_kwargs request in
  if session_loaded w then
    match video_url request with
    | None => new_calls w w' = [EvProcessOne (instruction request) None kw]
    | Some url =>
        match fst (download_video env url w) with
        | inl _ =>
            new_calls w w' = [EvGet url] \/
            exists p, new_calls w w' = [EvGet url; EvTempFile p]
        | inr p =>
            let call :=
              EvProcessOne (video_prompt (instruction request)) (Some p) kw in
            files w' !! p = None /\
            (new_calls w w' = [EvGet url; EvTempFile p; EvUnlink p] \/
             new_calls w w' = [EvGet url; EvTempFile p; call; EvUnlink p])
        end
    end
  else new_calls w w' = [].
Proof.
  simpl. destruct (session_loaded w) eqn:H.
  2:{ rewrite generate_unloaded by done. apply new_calls_same. }
  destruct (video_url request) as [url|] eqn:Hv.
  2:{ rewrite generate_text_eq by done. simpl.
      destruct (process_one env _ _ _ _ _); by apply new_calls_app. }
  pose proof (download_video_calls url w) as Hc.
  destruct (download_video env url w) as [[e|p] w1] eqn:Hd; simpl.
  - rewrite (generate_download_failed _ _ _ _ _ H Hv Hd). simpl.
    destruct Hc as (_ & _ & [Hc|[p Hc]]); [left|right; exists p];
      by apply new_calls_app.
  - destruct (generate_after_download _ _ _ _ _ H Hv Hd)
      as (r & w' & -> & Hf & _ & Hr).
    simpl. split; [done|]. destruct Hc as [_ Hc].
    destruct r as [e|body].
    + destruct Hr as [_ [Hr|Hr]]; [left|right]; apply new_calls_app;
        rewrite Hr, Hc, <- app_assoc; done.
    + destruct Hr as (text & _ & _ & Hr). right. apply new_calls_app.
      rewrite Hr, Hc, <- app_assoc; done.
Qed.

(** A stream that breaks after the file was created: the fetcher
    raises, the handler has no path to unlink, the file stays. *)
Lemma interrupted_stream_leaves_file request url w r e :
  session_loaded w = true -> video_url request = Some url ->
  requests_get env url = inr r -> status_ok r = true ->
  stream_error r = Some e ->
  let d := disk_step env (files w) in
  let name := mkstemp_name env d (video_suffix env url) in
  d !! name = None ->
  let w' := snd (generate env request w) in
  files w' !! name = Some (body_bytes r) /\
  new_calls w w' = [EvGet url; EvTempFile name].
Proof.
  intros Hl Hv Hg Hs He d name Hn.
  pose proof (download_video_eq url w) as Hd. simpl in Hd.
  rewrite Hg, Hs in Hd. fold d name in Hd. rewrite Hn, He in Hd.
  rewrite (generate_download_failed _ _ _ _ _ Hl Hv Hd). simpl.
  split; [apply lookup_insert_eq|].
  apply new_calls_app. unfold add_call; simpl. by rewrite <- app_assoc.
Qed.

(** ** The session *)

(** Startup fills both handles or raises and leaves the session as it
    was. *)
Lemma load_model_session w :
  match load_model env w with
  | (inr _, w') => session_loaded w' = true
  | (inl _, w') => model_state w' = model_state w
  end.
Proof.
  unfold load_model, try_except, bind, set_environ, set_model_state, raise.
  simpl. by destruct (load_model_and_processor env model_path 8) as [e|[m p]].
Qed.

(** No request writes the session. *)
Lemma generate_keeps_session request w :
  model_state (snd (generate env request w)) = model_state w.
Proof.
  destruct (session_loaded w) eqn:Hl; [|by rewrite generate_unloaded].
  destruct (video_url request) as [url|] eqn:Hv.
  - pose proof (download_video_calls url w) as Hc.
    destruct (download_video env url w) as [[e|p] w1] eqn:Hd.
    + rewrite (generate_download_failed _ _ _ _ _ Hl Hv Hd). by destruct Hc.
    + destruct (generate_after_download _ _ _ _ _ Hl Hv Hd)
        as (r & w' & -> & _ & Hm & _).
      simpl. rewrite Hm. by destruct Hc.
  - rewrite generate_text_eq by done. simpl.
    by destruct (process_one env _ _ _ _ _).
Qed.

(** The generation calls of a request: made by a loaded session, with
    the parameter record of the request, and with the prompt and video
    file of the branch taken. *)
Lemma generate_generation_calls request w pr vf kw :
  (pr, vf, kw) ∈
    generation_calls (new_calls w (snd (generate env request w))) ->
  session_loaded w = true /\
  kw = make_generate_kwargs request /\
  match video_url request with
  | None => pr = instruction request /\ vf = None
  | Some url =>
      pr = video_prompt (instruction request) /\
      exists p, vf = Some p /\ fst (download_video env url w) = inr p
  end.
Proof.
  pose proof (generate_calls request w) as Hc. simpl in Hc.
  destruct (session_loaded w); [|rewrite Hc; by intros ?%elem_of_nil].
  destruct (video_url request) as [url|].
  - destruct (fst (download_video env url w)) as [e|p] eqn:Hd.
    + destruct Hc as [->|[p ->]]; by intros ?%elem_of_nil.
    + destruct Hc as [_ [->| ->]]; simpl; [by intros ?%elem_of_nil|].
      intros Heq%list_elem_of_singleton. simplify_eq. eauto 10.
  - rewrite Hc. simpl. intros Heq%list_elem_of_singleton. by simplify_eq.
Qed.

(** A path is unlinked only if the fetcher returned it. *)
Lemma generate_unlinked_paths request w q :
  q ∈ unlinked_paths (new_calls w (snd (generate env request w))) ->
  exists url, video_url request = Some url /\
              fst (download_video env url w) = inr q.
Proof.
  pose proof (generate_calls request w) as Hc. simpl in Hc.
  destruct (session_loaded w); [|rewrite Hc; by intros ?%elem_of_nil].
  destruct (video_url request) as [url|].
  - destruct (fst (download_video env url w)) as [e|p] eqn:Hd.
    + destruct Hc as [->|[p ->]]; by intros ?%elem_of_nil.
    + destruct Hc as [_ [->| ->]]; simpl;
        intros Heq%list_elem_of_singleton; simplify_eq; eauto.
  - rewrite Hc. simpl. by intros ?%elem_of_nil.
Qed.

End Runs.

(** ** [str.replace] *)

Module PyStrFacts.
Import PyStr.

Lemma prefix_lacks c old s :
  lacks c s = true -> String.prefix (String c old) s = false.
Proof.
  destruct s as [|d s]; simpl; [done|].
  destruct (ascii_dec c d) as [->|Hne]; [|done].
  by rewrite Ascii.eqb_refl.
Qed.

Lemma lacks_tail c d s : lacks c (String d s) = true -> lacks c s = true.
Proof. simpl. by intros [_ ?]%andb_true_iff. Qed.

(** One step of the scan at a character that starts no skipped part. *)
Lemma replace_from_step old new c s :
  replace_from old new O (String c s) =
  if String.prefix old (String c s)
  then new +:+ replace_from old new (Nat.pred (String.length old)) s
  else String c (replace_from old new O s).
Proof. reflexivity. Qed.

Lemma replace_from_lacks c old new s :
  lacks c s = true -> replace_from (String c old) new O s = s.
Proof.
  induction s as [|d s IH]; [done|]. intros H.
  rewrite replace_from_step, (prefix_lacks _ _ _ H), IH; [done|].
  by eapply lacks_tail.
Qed.

Lemma replace_lacks c old new s :
  lacks c s = true -> replace s (String c old) new = s.
Proof. apply replace_from_lacks. Qed.

Lemma prefix_append a s : String.prefix a (a +:+ s) = true.
Proof.
  induction a as [|c a IH]; simpl; [by destruct s|].
  by destruct (ascii_dec c c).
Qed.

Lemma replace_from_skip old new a s :
  replace_from old new (String.length a) (a +:+ s) = replace_from old new O s.
Proof. induction a as [|c a IH]; simpl; [by destruct s|done]. Qed.

(** A text that starts with [old]: the occurrence is replaced and the
    scan goes on behind it. *)
Lemma replace_leading c old new s :
  replace (String c old +:+ s) (String c old) new =
  new +:+ replace s (String c old) new.
Proof.
  unfold replace.
  change (String c old +:+ s) with (String c (old +:+ s)) at 1.
  rewrite replace_from_step.
  change (String c (old +:+ s)) with (String c old +:+ s).
  rewrite prefix_append. simpl Nat.pred.
  by rewrite replace_from_skip.
Qed.

End PyStrFacts.

(** X14.  An instruction without the character ["<"] holds no marker:
    it is forwarded behind ["<video>\n"] exactly as it is. *)
Lemma video_prompt_plain (i : string) :
  PyStr.lacks "<" i = true -> video_prompt i = "<video>" +:+ PyStr.LF +:+ i.
Proof.
  intros H. unfold video_prompt.
  by rewrite !(PyStrFacts.replace_lacks _ _ _ _ H).
Qed.

(** One pass per marker: removing ["<video>"] can leave a ["<video>"]
    that the removal itself put together. *)
Example video_prompt_one_pass :
  video_prompt "<vid<video>eo>" = "<video>" +:+ PyStr.LF +:+ "<video>".
Proof. reflexivity. Qed.

(** * The claims *)

(** ** Rejected videos *)

Lemma status_404_rejected env url w r :
  requests_get env url = inr r -> status r = 404 ->
  video_rejected env url w = true.
Proof.
  intros Hg Hs. unfold video_rejected. rewrite download_video_eq. simpl.
  rewrite Hg. unfold status_ok. by rewrite Hs.
Qed.

(** C1, on the code.  A /generate request served by a loaded session
    whose video is rejected (the download raises, or the downloaded
    file is missing or has zero size) is answered with status 500: the
    [HTTPException] of status 400 raised for it is caught by the outer
    [except Exception] of the handler and raised again as a 500, with
    the text of the first as its detail.  A video URL that answers 404
    is rejected in this way, so it too is answered with 500, not 400. *)
Theorem rejected_video_answered_500 env request url w :
  session_loaded w = true ->
  video_url request = Some url ->
  video_rejected env url w = true \/
  (exists r, requests_get env url = inr r /\ status r = 404) ->
  exists d,
    fst (POST_generate env request w) =
    {| resp_status := 500;
       resp_content := JSON {[ "detail" := PyString d ]} |}.
Proof.
  intros Hl Hv Hr.
  assert (video_rejected env url w = true) as Hrej.
  { destruct Hr as [?|(r & Hg & Hs)]; [done|]. by eapply status_404_rejected. }
  destruct (generate_video_rejected env _ _ _ Hl Hv Hrej) as (d & w' & Hg).
  exists d. unfold POST_generate. by rewrite serve_fst, Hg.
Qed.

Lemma rejected_video_answered_500_witness :
  exists d,
    fst (POST_generate Examples.env_404 Examples.what_happens
           Examples.started) =
    {| resp_status := 500;
       resp_content := JSON {[ "detail" := PyString d ]} |}.
Proof.
  apply (rejected_video_answered_500 Examples.env_404 Examples.what_happens
           "http://x/y.mp4" Examples.started).
  - reflexivity.
  - reflexivity.
  - right. eexists. split; reflexivity.
Defined.

(** ** The prompt of a video request *)

(** The scenario of the specification, run: a loaded session, a
    reachable video, the instruction ["<video>\nWhat happens?"]. *)
Lemma scenario_generation_calls :
  generation_calls
    (new_calls Examples.started
       (snd (POST_generate Examples.env_ok Examples.what_happens
               Examples.started))) =
  [("<video>" +:+ PyStr.LF +:+ PyStr.LF +:+ "What happens?",
    Some "/tmp/tmpvideo.mp4",
    make_generate_kwargs Examples.what_happens)].
Proof. vm_compute. reflexivity. Qed.

(** C2 fails on the scenario of the specification: for the instruction
    ["<video>\nWhat happens?"] the marker is removed, the line feed
    that followed it stays, and the prompt forwarded has two line
    feeds after the marker. *)
Lemma scenario_prompt_counterexample :
  exists pr vf kw,
    (pr, vf, kw) ∈
      generation_calls
        (new_calls Examples.started
           (snd (POST_generate Examples.env_ok Examples.what_happens
                   Examples.started))) /\
    instruction Examples.what_happens =
      "<video>" +:+ PyStr.LF +:+ "What happens?" /\
    pr <> "<video>" +:+ PyStr.LF +:+ "What happens?".
Proof.
  rewrite scenario_generation_calls. eexists _, _, _.
  split; [apply list_elem_of_here|]. split; [reflexivity|discriminate].
Qed.

(** C2, amended.  For every /generate request with a video URL, the
    prompt of any generation call the request makes is ["<video>\n"]
    followed by the instruction after [replace("<image>", "")] and
    then [replace("<video>", "")]; for the instruction
    ["<video>\nWhat happens?"] that prompt is
    ["<video>\n\nWhat happens?"]. *)
Theorem video_prompt_forwarded env request url w pr vf kw :
  video_url request = Some url ->
  (pr, vf, kw) ∈
    generation_calls (new_calls w (snd (POST_generate env request w))) ->
  pr = "<video>" +:+ PyStr.LF +:+
       PyStr.replace (PyStr.replace (instruction request) "<image>" "")
         "<video>" "" /\
  (instruction request = "<video>" +:+ PyStr.LF +:+ "What happens?" ->
   pr = "<video>" +:+ PyStr.LF +:+ PyStr.LF +:+ "What happens?").
Proof.
  intros Hv Hin. unfold POST_generate in Hin. rewrite serve_snd in Hin.
  apply generate_generation_calls in Hin as (_ & _ & Hp).
  rewrite Hv in Hp. destruct Hp as [-> _].
  split; [reflexivity|]. by intros ->.
Qed.

Lemma video_prompt_forwarded_witness :
  "<video>" +:+ PyStr.LF +:+ PyStr.LF +:+ "What happens?" =
  "<video>" +:+ PyStr.LF +:+
    PyStr.replace
      (PyStr.replace (instruction Examples.what_happens) "<image>" "")
      "<video>" "".
Proof.
  refine (proj1 (video_prompt_forwarded Examples.env_ok Examples.what_happens
                   "http://x/y.mp4" Examples.started _
                   (Some "/tmp/tmpvideo.mp4")
                   (make_generate_kwargs Examples.what_happens) _ _)).
  - reflexivity.
  - rewrite scenario_generation_calls. apply list_elem_of_here.
Defined.

(** ** The temporary file *)




(** ** Readiness *)

(** C4.  A /generate request received while the session holds no model
    or no processor is answered 503 at once: the world after the
    request is the world before it, so no download and no generation
    call has been made. *)
Theorem unloaded_session_answered_503 env request w :
  model (model_state w) = None \/ processor (model_state w) = None ->
  let '(resp, w') := POST_generate env request w in
  resp = {| resp_status := 503;
            resp_content :=
              JSON {[ "detail" := PyString "Model not loaded" ]} |} /\
  w' = w /\
  fetched_urls (new_calls w w') = [] /\
  generation_calls (new_calls w w') = [].
Proof.
  intros H.
  assert (session_loaded w = false) as Hl.
  { unfold session_loaded. destruct H as [-> | ->]; simpl;
      [done | by rewrite orb_true_r]. }
  unfold POST_generate, serve. rewrite (generate_unloaded env request w Hl).
  simpl. by rewrite new_calls_same.
Qed.

Lemma unloaded_session_answered_503_witness :
  let '(resp, w') :=
    POST_generate Examples.env_ok Examples.what_happens Examples.boot in
  resp = {| resp_status := 503;
            resp_content :=
              JSON {[ "detail" := PyString "Model not loaded" ]} |} /\
  w' = Examples.boot /\
  fetched_urls (new_calls Examples.boot w') = [] /\
  generation_calls (new_calls Examples.boot w') = [].
Proof.
  apply (unloaded_session_answered_503 Examples.env_ok Examples.what_happens
           Examples.boot).
  left. reflexivity.
Defined.

(** ** Text-only requests *)

(** C5.  A /generate request without a video URL, served by a loaded
    session whose generation call returns a text, is answered 200 with
    the body [{"generated_text": text, "status": "success"}], and the
    one generation call it makes carries the instruction of the
    request as its prompt, unmodified, and no video file. *)
Theorem text_only_success env request w text :
  session_loaded w = true ->
  video_url request = None ->
  process_one env (model (model_state w)) (processor (model_state w))
    (instruction request) None (make_generate_kwargs request) = inr text ->
  let '(resp, w') := POST_generate env request w in
  resp = {| resp_status := 200;
            resp_content := JSON {[ "generated_text" := PyString text;
                               "status" := PyString "success" ]} |} /\
  generation_calls (new_calls w w') =
    [(instruction request, None, make_generate_kwargs request)].
Proof.
  intros Hl Hv Hp. unfold POST_generate, serve.
  rewrite (generate_text_eq env request w Hl Hv). simpl. rewrite Hp.
  split; [done|].
  by rewrite (new_calls_app w _ [EvProcessOne (instruction request) None
                                   (make_generate_kwargs request)]).
Qed.

Lemma text_only_success_witness :
  let '(resp, w') :=
    POST_generate Examples.env_ok Examples.describe_this Examples.started in
  resp = {| resp_status := 200;
            resp_content :=
              JSON {[ "generated_text" := PyString "caption for Describe this.";
                 "status" := PyString "success" ]} |} /\
  generation_calls (new_calls Examples.started w') =
    [("Describe this.", None, make_generate_kwargs Examples.describe_this)].
Proof.
  apply (text_only_success Examples.env_ok Examples.describe_this
           Examples.started "caption for Describe this.").
  - reflexivity.
  - reflexivity.
  - reflexivity.
Defined.

(** C6.  A /generate request without a video URL fetches nothing,
    creates no temporary file and leaves the disk as it was, whatever
    the session holds and whatever the generation call does. *)
Theorem text_only_no_temp_file env request w :
  video_url request = None ->
  let w' := snd (POST_generate env request w) in
  fetched_urls (new_calls w w') = [] /\
  created_files (new_calls w w') = [] /\
  files w' = files w.
Proof.
  intros Hv. simpl. unfold POST_generate. rewrite serve_snd.
  destruct (session_loaded w) eqn:Hl.
  - rewrite (generate_text_eq env request w Hl Hv). simpl.
    destruct (process_one env _ _ _ _ _); simpl;
      by rewrite (new_calls_app w _ [EvProcessOne (instruction request) None
                                       (make_generate_kwargs request)]).
  - rewrite (generate_unloaded env request w Hl). simpl.
    by rewrite new_calls_same.
Qed.

Lemma text_only_no_temp_file_witness :
  let w' := snd (POST_generate Examples.env_ok Examples.describe_this
                   Examples.started) in
  fetched_urls (new_calls Examples.started w') = [] /\
  created_files (new_calls Examples.started w') = [] /\
  files w' = files Examples.started.
Proof.
  apply (text_only_no_temp_file Examples.env_ok Examples.describe_this
           Examples.started).
  reflexivity.
Defined.

(** ** Generation parameters *)





(** ** Health *)

(** C8 fails on a session whose model has no parameter: [next] finds
    the iterator of line 152 empty, the handler raises and the
    response is a 500. *)
Lemma health_check_counterexample :
  model (model_state Scenarios.hollow) = Some {| parameters := [] |} /\
  fst (GET_health Scenarios.hollow) =
    {| resp_status := 500;
       resp_content := PlainText "Internal Server Error" |} /\
  resp_status (fst (GET_health Scenarios.hollow)) <> 200.
Proof. repeat split. discriminate. Qed.

(** C8, amended.  GET /health leaves the state as it was and answers
    by the model the session holds, whatever processor it holds: with
    no model, 200 with [{"status": "healthy", "model_loaded": false,
    "device": "not loaded"}]; with a model that has a first parameter
    tensor [t], 200 with [{"status": "healthy", "model_loaded": true,
    "device": device of t}]; with a model that has no parameter, the
    500 of a handler that raised. *)
Theorem health_check_response w :
  snd (GET_health w) = w /\
  match model (model_state w) with
  | None =>
      fst (GET_health w) =
      {| resp_status := 200;
         resp_content := JSON {[ "status" := PyString "healthy";
                                 "model_loaded" := PyBool false;
                                 "device" := PyString "not loaded" ]} |}
  | Some m =>
      match parameters m with
      | t :: _ =>
          fst (GET_health w) =
          {| resp_status := 200;
             resp_content := JSON {[ "status" := PyString "healthy";
                                     "model_loaded" := PyBool true;
                                     "device" := PyString (device t) ]} |}
      | [] =>
          fst (GET_health w) =
          {| resp_status := 500;
             resp_content := PlainText "Internal Server Error" |}
      end
  end.
Proof.
  unfold GET_health, serve, health_check, next_parameter, bind, get_world,
    ret, raise.
  destruct (model (model_state w)) as [m|]; [|done].
  by destruct (parameters m).
Qed.

(** The answers on the process before startup, after startup, and on
    a session that holds a model and no processor. *)
Example health_check_runs :
  fst (GET_health Examples.boot) =
  {| resp_status := 200;
     resp_content := JSON {[ "status" := PyString "healthy";
                             "model_loaded" := PyBool false;
                             "device" := PyString "not loaded" ]} |} /\
  fst (GET_health Examples.started) =
  {| resp_status := 200;
     resp_content := JSON {[ "status" := PyString "healthy";
                             "model_loaded" := PyBool true;
                             "device" := PyString "cuda:0" ]} |} /\
  (session_loaded Scenarios.half_loaded = false /\
   fst (GET_health Scenarios.half_loaded) =
   {| resp_status := 200;
      resp_content := JSON {[ "status" := PyString "healthy";
                              "model_loaded" := PyBool true;
                              "device" := PyString "cuda:0" ]} |}).
Proof. repeat split. Qed.

(** C9.  GET /health does not change the world, so a second call that
    follows a first returns the response of the first. *)
Theorem health_check_twice w :
  let '(resp1, w1) := GET_health w in
  let '(resp2, w2) := GET_health w1 in
  resp1 = resp2 /\ w1 = w /\ w2 = w.
Proof.
  assert (snd (GET_health w) = w) as Hw.
  { unfold GET_health, serve, health_check, next_parameter, bind, get_world,
      ret, raise.
    destruct (model (model_state w)) as [m|]; [|done].
    by destruct (parameters m). }
  destruct (GET_health w) as [resp1 w1] eqn:H1. simpl in Hw. subst w1.
  by rewrite H1.
Qed.

(** ** Cleanup *)

(** C10.  In a /generate request with a video URL, when the Video
    Fetcher raises instead of returning a path the handler unlinks
    nothing; and every path the handler unlinks is the path the Video
    Fetcher returned to it. *)
Theorem cleanup_only_after_fetch env request url w :
  video_url request = Some url ->
  let w' := snd (POST_generate env request w) in
  (forall e w1,
     download_video env url w = (inl e, w1) ->
     unlinked_paths (new_calls w w') = []) /\
  (forall q,
     q ∈ unlinked_paths (new_calls w w') ->
     exists w1, download_video env url w = (inr q, w1)).
Proof.
  intros Hv. simpl. unfold POST_generate. rewrite serve_snd.
  assert (forall q,
            q ∈ unlinked_paths (new_calls w (snd (generate env request w))) ->
            exists w1, download_video env url w = (inr q, w1)) as Hq.
  { intros q Hin%generate_unlinked_paths. destruct Hin as (url' & Hv' & Hd).
    rewrite Hv in Hv'. injection Hv' as <-.
    destruct (download_video env url w) as [r w1]. simpl in Hd. subst r.
    by exists w1. }
  split; [|exact Hq].
  intros e w1 Hd.
  destruct (unlinked_paths _) as [|q l] eqn:Hu; [done|].
  destruct (Hq q) as [w2 Hd']; [apply list_elem_of_here|].
  rewrite Hd in Hd'. discriminate.
Qed.

Lemma cleanup_only_after_fetch_witness :
  unlinked_paths
    (new_calls Examples.started
       (snd (POST_generate Examples.env_404 Examples.what_happens
               Examples.started))) = [].
Proof.
  refine (proj1 (cleanup_only_after_fetch Examples.env_404
                   Examples.what_happens "http://x/y.mp4" Examples.started _)
            _ (snd (download_video Examples.env_404 "http://x/y.mp4"
                      Examples.started)) _).
  - reflexivity.
  - vm_compute. reflexivity.
Defined.

(** ** Further runs *)

(** A video of zero bytes: rejected, and answered 500. *)
Example empty_video_run :
  video_rejected Examples.env_empty "http://x/y.mp4" Examples.started = true /\
  fst (POST_generate Examples.env_empty Examples.what_happens Examples.started)
  = {| resp_status := 500;
       resp_content :=
         JSON {[ "detail" := PyString "400: Video file is empty" ]} |}.
Proof. split; vm_compute; reflexivity. Qed.

(** A temporary file removed by another process before the handler
    looks for it: the [finally] block fails on [os.unlink] and its
    exception is the one answered. *)
Example swept_video_run :
  video_rejected Examples.env_swept "http://x/y.mp4" Examples.started = true /\
  fst (POST_generate Examples.env_swept Examples.what_happens Examples.started)
  = {| resp_status := 500;
       resp_content :=
         JSON {[ "detail" :=
                   PyString "[Errno 2] No such file or directory: '/tmp/tmpvideo.mp4'" ]} |}.
Proof. split; vm_compute; reflexivity. Qed.

(** A stream cut after its first chunk: the response is a 500 and the
    temporary file is still on disk. *)
Example cut_stream_run :
  let '(resp, w') :=
    POST_generate Examples.env_cut Examples.what_happens Examples.started in
  resp_status resp = 500 /\
  files w' !! "/tmp/tmpvideo.mp4" = Some [x00] /\
  unlinked_paths (new_calls Examples.started w') = [].
Proof. vm_compute. repeat split; reflexivity. Qed.

(** * Further properties of the code *)

(** ** Frames and flattened runs *)

Section Frames.

Context (env : Env).

(** The fetcher writes neither the session nor [os.environ]. *)
Lemma download_video_frame url w :
  model_state (snd (download_video env url w)) = model_state w /\
  environ (snd (download_video env url w)) = environ w.
Proof.
  rewrite download_video_eq. simpl.
  destruct (requests_get env url) as [e|r];
    [|destruct (status_ok r);
      [destruct (disk_step env (files w) !! _);
       [|destruct (stream_error r)]|]]; done.
Qed.

(** Nor does the generation handler. *)
Lemma generate_frame request w :
  model_state (snd (generate env request w)) = model_state w /\
  environ (snd (generate env request w)) = environ w.
Proof.
  destruct (session_loaded w) eqn:Hl; [|by rewrite generate_unloaded].
  destruct (video_url request) as [url|] eqn:Hv.
  2:{ rewrite generate_text_eq by done. simpl.
      by destruct (process_one env _ _ _ _ _). }
  destruct (download_video_frame url w) as [Hm He].
  destruct (download_video env url w) as [[e|p] w1] eqn:Hd; simpl in *.
  { by rewrite (generate_download_failed env _ _ _ _ _ Hl Hv Hd). }
  rewrite <- Hm, <- He.
  unfold session_loaded in Hl. apply negb_true_iff in Hl.
  unfold generate, bind, get_world. rewrite Hl, Hv.
  unfold try_except, bind. rewrite Hd.
  unfold try_finally, os_path_exists, os_path_getsize, os_unlink, try_except,
    call_process_one, print_, look_at_disk, bind, get_world, set_files,
    record_call, when, raise, ret. simpl.
  repeat (case_match; simplify_eq/=); done.
Qed.


End Frames.



(** A loaded session answers with the text of one generation call or
    with an [HTTPException] of status 500. *)
Lemma generate_outcome env request w :
  session_loaded w = true ->
  let kw := make_generate_kwargs request in
  match generate env request w with
  | (inr body, w') =>
      exists text pr vf,
        body = {[ "generated_text" := PyString text;
                  "status" := PyString "success" ]} /\
        generation_calls (new_calls w w') = [(pr, vf, kw)] /\
        process_one env (model (model_state w)) (processor (model_state w))
          pr vf kw = inr text
  | (inl e, _) => exists d, e = HTTPException 500 d
  end.
Proof.
  intros Hl. simpl.
  destruct (video_url request) as [url|] eqn:Hv.
  2:{ rewrite generate_text_eq by done. simpl.
      destruct (process_one env _ _ _ _ _) eqn:Hp; [by eauto|].
      eexists _, _, _. split; [done|]. split; [|exact Hp].
      by rewrite (new_calls_app w _ [EvProcessOne (instruction request) None
                                       (make_generate_kwargs request)]). }
  pose proof (download_video_calls env url w) as Hc.
  destruct (download_video env url w) as [[e|p] w1] eqn:Hd.
  { rewrite (generate_download_failed env _ _ _ _ _ Hl Hv Hd). eauto. }
  destruct (generate_after_download env _ _ _ _ _ Hl Hv Hd)
    as (r & w' & -> & _ & _ & Hr).
  destruct Hc as [Hm Hc].
  destruct r as [e|body]; [by destruct Hr|].
  destruct Hr as (text & Hp & -> & Hr).
  eexists text, _, _. split; [done|]. rewrite <- Hm. split; [|exact Hp].
  rewrite (new_calls_app w w' _ ltac:(by rewrite Hr, Hc, <- app_assoc)).
  done.
Qed.

(** [replace(old, "")] only takes characters away. *)
Lemma replace_from_sublist old skip s :
  list_ascii_of_string (PyStr.replace_from old "" skip s)
    `sublist_of` list_ascii_of_string s.
Proof.
  revert skip. induction s as [|c s IH]; intros skip; [done|].
  destruct skip as [|k].
  - rewrite PyStrFacts.replace_from_step.
    destruct (String.prefix old (String c s)); simpl.
    + change ("" +:+ ?x) with x. by apply sublist_cons.
    + by apply sublist_skip.
  - simpl. by apply sublist_cons.
Qed.

Lemma replace_sublist s old :
  list_ascii_of_string (PyStr.replace s old "")
    `sublist_of` list_ascii_of_string s.
Proof.
  destruct old as [|c old]; simpl; [|apply replace_from_sublist].
  induction s as [|d s IH]; simpl; [done|]. by apply sublist_skip.
Qed.

(** ** Startup and the session *)



(** X2.  Serving any sequence of /generate requests leaves the session
    and [os.environ] as they were and gives one response per request;
    on a loaded session every one of these responses is a 200 or a
    500. *)
Theorem session_survives_requests env requests w :
  let '(resps, w') := serve_requests env requests w in
  model_state w' = model_state w /\
  environ w' = environ w /\
  List.length resps = List.length requests /\
  (session_loaded w = true ->
   Forall (fun resp => resp_status resp = 200 \/ resp_status resp = 500) resps).
Proof.
  revert w. induction requests as [|request rest IH]; intros w; simpl.
  { repeat split; auto. }
  destruct (generate_frame env request w) as [Hm He].
  pose proof (generate_outcome env request w) as Ho.
  unfold POST_generate, serve.
  destruct (generate env request w) as [r w1]. simpl in Hm, He.
  specialize (IH w1).
  destruct (serve_requests env rest w1) as [resps w2].
  destruct IH as (IHm & IHe & IHl & IHs).
  split; [congruence|]. split; [congruence|]. split; [simpl; congruence|].
  intros Hl. constructor.
  - specialize (Ho Hl). simpl in Ho. destruct r as [e|body]; simpl.
    + destruct Ho as [d ->]. by right.
    + by left.
  - apply IHs. unfold session_loaded in *. by rewrite Hm.
Qed.

Lemma session_survives_requests_witness :
  Forall (fun resp => resp_status resp = 200 \/ resp_status resp = 500)
    (fst (serve_requests Examples.env_404
            [Examples.what_happens; Examples.describe_this]
            Examples.started)).
Proof.
  pose proof (session_survives_requests Examples.env_404
                [Examples.what_happens; Examples.describe_this]
                Examples.started) as H.
  destruct (serve_requests _ _ _) as [resps w'].
  apply H. reflexivity.
Defined.

(** ** Responses of /generate *)

(** X3.  The status of a /generate response is 503 when the session is
    not loaded and 200 or 500 when it is: the handler never answers
    400, although it raises exceptions of that status. *)
Theorem generate_status env request w :
  let status := resp_status (fst (POST_generate env request w)) in
  if session_loaded w then status = 200 \/ status = 500 else status = 503.
Proof.
  simpl. unfold POST_generate. rewrite serve_fst.
  destruct (session_loaded w) eqn:Hl.
  - pose proof (generate_outcome env request w Hl) as Ho. simpl in Ho.
    destruct (generate env request w) as [[e|body] w']; simpl.
    + destruct Ho as [d ->]. by right.
    + by left.
  - by rewrite generate_unloaded.
Qed.

(** X4.  A 200 response of /generate carries, as [generated_text], the
    text returned by the one generation call the request made, and
    that call received the parameter record of the request. *)
Theorem success_carries_generated_text env request w body :
  fst (POST_generate env request w) =
    {| resp_status := 200; resp_content := body |} ->
  exists text pr vf,
    body = JSON {[ "generated_text" := PyString text;
                   "status" := PyString "success" ]} /\
    generation_calls (new_calls w (snd (POST_generate env request w))) =
      [(pr, vf, make_generate_kwargs request)] /\
    process_one env (model (model_state w)) (processor (model_state w))
      pr vf (make_generate_kwargs request) = inr text.
Proof.
  unfold POST_generate. rewrite serve_fst, serve_snd.
  destruct (session_loaded w) eqn:Hl.
  - pose proof (generate_outcome env request w Hl) as Ho. simpl in Ho.
    destruct (generate env request w) as [[e|b] w']; simpl.
    + destruct Ho as [d ->]. simpl. intros [=].
    + intros [= <-]. destruct Ho as (text & pr & vf & -> & Hg & Hp).
      by exists text, pr, vf.
  - rewrite generate_unloaded by done. simpl. intros [=].
Qed.

Lemma success_carries_generated_text_witness :
  exists text pr vf,
    JSON {[ "generated_text" := PyString "caption for Describe this.";
            "status" := PyString "success" ]} =
    JSON {[ "generated_text" := PyString text;
            "status" := PyString "success" ]} /\
    generation_calls
      (new_calls Examples.started
         (snd (POST_generate Examples.env_ok Examples.describe_this
                 Examples.started))) =
      [(pr, vf, make_generate_kwargs Examples.describe_this)] /\
    process_one Examples.env_ok (model (model_state Examples.started))
      (processor (model_state Examples.started))
      pr vf (make_generate_kwargs Examples.describe_this) = inr text.
Proof.
  apply (success_carries_generated_text Examples.env_ok
           Examples.describe_this Examples.started).
  reflexivity.
Defined.



(** X12.  A /generate request fetches at most one URL, the one of the
    request, creates at most one temporary file, makes at most one
    generation call and unlinks at most one path, which is a file the
    same request created. *)
Theorem request_calls_bounded env request w :
  let tr := new_calls w (snd (POST_generate env request w)) in
  (List.length (fetched_urls tr) <= 1)%nat /\
  (List.length (created_files tr) <= 1)%nat /\
  (List.length (generation_calls tr) <= 1)%nat /\
  (List.length (unlinked_paths tr) <= 1)%nat /\
  (forall u, u ∈ fetched_urls tr -> video_url request = Some u) /\
  (forall p, p ∈ unlinked_paths tr -> p ∈ created_files tr).
Proof.
  simpl. unfold POST_generate. rewrite serve_snd.
  pose proof (generate_calls env request w) as Hc. simpl in Hc.
  destruct (session_loaded w).
  2:{ rewrite Hc. simpl. repeat split; try lia; by intros ? ?%elem_of_nil. }
  destruct (video_url request) as [url|].
  2:{ rewrite Hc. simpl. repeat split; try lia; by intros ? ?%elem_of_nil. }
  destruct (fst (download_video env url w)) as [e|p].
  - destruct Hc as [-> | [p ->]]; simpl; repeat split; try lia;
      try (by intros ? ?%elem_of_nil);
      by intros ? ->%list_elem_of_singleton.
  - destruct Hc as [_ [-> | ->]]; simpl; repeat split; try lia;
      try (by intros ? ->%list_elem_of_singleton);
      by intros ? ?.
Qed.

(** ** The video fetcher *)

(** X5.  When [download_video] returns a path, the HTTP layer answered
    without a 4xx/5xx status and delivered its whole body; the path is
    the name picked for the suffix of the URL (or [".mp4"] when the
    URL has none), it was free on the disk as found, it now holds the
    chunks joined in order, no other file has changed, and the calls
    made are the GET and the creation of the file. *)
Theorem download_video_saves_body env url w p w1 :
  download_video env url w = (inr p, w1) ->
  exists r,
    requests_get env url = inr r /\
    status_ok r = true /\
    stream_error r = None /\
    let found := disk_step env (files w) in
    p = mkstemp_name env found
          (match url_ext env url with EmptyString => ".mp4" | e => e end) /\
    found !! p = None /\
    files w1 = <[p := concat (chunks r)]> found /\
    calls w1 = (calls w ++ [EvGet url; EvTempFile p])%list.
Proof.
  rewrite download_video_eq. simpl. unfold video_suffix, body_bytes.
  destruct (requests_get env url) as [e|r]; [done|].
  destruct (status_ok r) eqn:Hs; [|done].
  destruct (disk_step env (files w) !! _) eqn:Hn; [done|].
  destruct (stream_error r) eqn:He; [done|].
  intros [= <- <-]. exists r. simpl. rewrite <- app_assoc.
  repeat split; done.
Qed.

Lemma download_video_saves_body_witness :
  exists r,
    requests_get Examples.env_ok "http://x/y.mp4" = inr r /\
    status_ok r = true /\
    stream_error r = None /\
    let found := disk_step Examples.env_ok (files Examples.started) in
    "/tmp/tmpvideo.mp4" =
      mkstemp_name Examples.env_ok found
        (match url_ext Examples.env_ok "http://x/y.mp4" with
         | EmptyString => ".mp4"
         | e => e
         end) /\
    found !! "/tmp/tmpvideo.mp4" = None /\
    files (snd (download_video Examples.env_ok "http://x/y.mp4"
                  Examples.started)) =
      <["/tmp/tmpvideo.mp4" := concat (chunks r)]> found /\
    calls (snd (download_video Examples.env_ok "http://x/y.mp4"
                  Examples.started)) =
      (calls Examples.started ++
       [EvGet "http://x/y.mp4"; EvTempFile "/tmp/tmpvideo.mp4"])%list.
Proof.
  apply (download_video_saves_body Examples.env_ok "http://x/y.mp4"
           Examples.started).
  vm_compute. reflexivity.
Defined.

(** X6.  Every exception that leaves [download_video] is an
    [HTTPException] of status 400 whose detail is ["Failed to download
    video: "] followed by the text of the cause; the fetcher has then
    changed no session state, unlinked nothing and called no model. *)
Theorem download_video_raises_400 env url w e w1 :
  download_video env url w = (inl e, w1) ->
  (exists cause,
     e = HTTPException 400 ("Failed to download video: " +:+ str env cause)) /\
  model_state w1 = model_state w /\
  unlinked_paths (new_calls w w1) = [] /\
  generation_calls (new_calls w w1) = [].
Proof.
  rewrite download_video_eq. cbv zeta.
  set (name := mkstemp_name env _ _).
  destruct (requests_get env url) as [e0|r];
    [|destruct (status_ok r);
      [destruct (disk_step env (files w) !! name);
       [|destruct (stream_error r) as [e0|]; [|done]]|]];
    intros [= <- <-].
  - split; [by exists e0|]. split; [done|].
    by rewrite (new_calls_app w _ [EvGet url]).
  - split; [by exists (FileExistsError name)|]. split; [done|].
    by rewrite (new_calls_app w _ [EvGet url]).
  - split; [by exists e0|]. split; [done|].
    rewrite (new_calls_app w _ [EvGet url; EvTempFile name]); [done|].
    simpl. by rewrite <- app_assoc.
  - split; [by exists (PyException "HTTPError" (HTTPError_str env r))|].
    split; [done|]. by rewrite (new_calls_app w _ [EvGet url]).
Qed.

Lemma download_video_raises_400_witness :
  exists cause,
    HTTPException 400 "Failed to download video: 404 Client Error" =
    HTTPException 400
      ("Failed to download video: " +:+ str Examples.env_404 cause).
Proof.
  refine (proj1 (download_video_raises_400 Examples.env_404 "http://x/y.mp4"
                   Examples.started _
                   (snd (download_video Examples.env_404 "http://x/y.mp4"
                           Examples.started)) _)).
  vm_compute. reflexivity.
Defined.

(** X7.  When the stream breaks after the temporary file was created,
    the request is answered 500, the file stays on disk with the
    chunks received so far, and the request unlinks nothing:
    [download_video] never returned the path to [generate]. *)
Theorem broken_stream_leaks_file env request url w r e :
  session_loaded w = true -> video_url request = Some url ->
  requests_get env url = inr r -> status_ok r = true ->
  stream_error r = Some e ->
  let found := disk_step env (files w) in
  let name := mkstemp_name env found (video_suffix env url) in
  found !! name = None ->
  let '(resp, w') := POST_generate env request w in
  resp_status resp = 500 /\
  files w' = <[name := concat (chunks r)]> found /\
  new_calls w w' = [EvGet url; EvTempFile name].
Proof.
  intros Hl Hv Hg Hs He found name Hn.
  pose proof (download_video_eq env url w) as Hd. simpl in Hd.
  rewrite Hg, Hs in Hd. fold found name in Hd. rewrite Hn, He in Hd.
  unfold POST_generate, serve.
  rewrite (generate_download_failed env _ _ _ _ _ Hl Hv Hd). simpl.
  split; [done|]. split; [done|].
  apply new_calls_app. simpl. by rewrite <- app_assoc.
Qed.

Lemma broken_stream_leaks_file_witness :
  let '(resp, w') :=
    POST_generate Examples.env_cut Examples.what_happens Examples.started in
  resp_status resp = 500 /\
  files w' =
    <["/tmp/tmpvideo.mp4" := [x00]]>
      (disk_step Examples.env_cut (files Examples.started)) /\
  new_calls Examples.started w' =
    [EvGet "http://x/y.mp4"; EvTempFile "/tmp/tmpvideo.mp4"].
Proof.
  apply (broken_stream_leaks_file Examples.env_cut Examples.what_happens
           "http://x/y.mp4" Examples.started
           {| status := 200; chunks := [[x00]];
              stream_error :=
                Some (PyException "ChunkedEncodingError"
                        "Connection broken") |}
           (PyException "ChunkedEncodingError" "Connection broken"));
    reflexivity.
Defined.

(** ** Video requests on a quiet machine *)







(** ** Health *)

(** X13.  GET /health answers 500 exactly when the session holds a
    model without any parameter ([next] on an empty iterator);
    otherwise it answers 200. *)
Theorem health_check_fails_iff w :
  (resp_status (fst (GET_health w)) = 500 <->
   exists m, model (model_state w) = Some m /\ parameters m = []) /\
  (resp_status (fst (GET_health w)) = 200 \/
   fst (GET_health w) =
   {| resp_status := 500;
      resp_content := PlainText "Internal Server Error" |}).
Proof.
  unfold GET_health, serve, health_check, next_parameter, bind, get_world,
    ret, raise.
  destruct (model (model_state w)) as [m|]; simpl.
  - destruct (parameters m) eqn:Hp; simpl.
    + split; [|by right]. split; [by eauto|done].
    + split; [|by left]. split; [done|]. intros (m' & [= <-] & Hp').
      congruence.
  - split; [|by left]. split; [done|]. by intros (m' & [=] & _).
Qed.

Lemma health_check_fails_iff_witness :
  resp_status (fst (GET_health Scenarios.hollow)) = 500.
Proof.
  apply (proj2 (proj1 (health_check_fails_iff Scenarios.hollow))).
  exists {| parameters := [] |}. split; reflexivity.
Defined.

(** ** The prompt of a video request *)

Lemma video_prompt_plain_witness :
  video_prompt "What happens?" = "<video>" +:+ PyStr.LF +:+ "What happens?".
Proof. apply (video_prompt_plain "What happens?"). reflexivity. Defined.

(** X15.  An instruction that already starts with ["<video>"] or with
    ["<image>"] gives the prompt of the instruction without that
    marker. *)
Theorem leading_marker_dropped (i : string) :
  video_prompt ("<video>" +:+ i) = video_prompt i /\
  video_prompt ("<image>" +:+ i) = video_prompt i.
Proof.
  unfold video_prompt. split.
  - replace (PyStr.replace ("<video>" +:+ i) "<image>" "")
      with ("<video>" +:+ PyStr.replace i "<image>" "") by reflexivity.
    by rewrite PyStrFacts.replace_leading.
  - by rewrite PyStrFacts.replace_leading.
Qed.

(** X16.  The prompt of a video request is ["<video>\n"] followed by
    characters of the instruction in their order: the two [replace]
    calls take characters away and add none, so the prompt is at most
    eight characters longer than the instruction. *)
Theorem video_prompt_only_removes (i : string) :
  exists rest,
    video_prompt i = "<video>" +:+ PyStr.LF +:+ rest /\
    list_ascii_of_string rest `sublist_of` list_ascii_of_string i /\
    (String.length (video_prompt i) <= 8 + String.length i)%nat.
Proof.
  eexists. split; [reflexivity|].
  assert (list_ascii_of_string
            (PyStr.replace (PyStr.replace i "<image>" "") "<video>" "")
          `sublist_of` list_ascii_of_string i) as Hsub.
  { etrans; apply replace_sublist. }
  split; [exact Hsub|].
  apply sublist_length in Hsub.
  assert (forall s, List.length (list_ascii_of_string s) = String.length s)
    as Hlen by (induction s; simpl; congruence).
  rewrite !Hlen in Hsub.
  change (String.length (video_prompt i)) with
    (8 + String.length
           (PyStr.replace (PyStr.replace i "<image>" "") "<video>" ""))%nat.
  lia.
Qed.

(** A lone surrogate as instruction on a machine whose standard output
    is a UTF-8 stream: the [print] of line 103 raises, the request is
    answered 500, no generation call is made and the file is unlinked. *)
Example surrogate_instruction_run :
  let '(resp, w') :=
    POST_generate Scenarios.env_utf8_stdout Scenarios.surrogate_request
      Examples.started in
  resp_status resp = 500 /\
  new_calls Examples.started w' =
    [EvGet "http://x/y.mp4"; EvTempFile "/tmp/tmpvideo.mp4";
     EvUnlink "/tmp/tmpvideo.mp4"] /\
  files w' = files Examples.started.
Proof. vm_compute. repeat split; reflexivity. Qed.
